(** * ClimbLogForm: the climb-log entry form

    A shallow embedding of [src/components/ClimbLogForm.tsx]: the twelve
    [useState] cells of the component, its event handlers, the object handed
    to the [onSubmit] callback, and the properties of the form's
    validation, normalisation and reset logic. *)

From Stdlib Require Import ZArith List String Ascii Bool Lia.
From Stdlib Require Import DecimalString DecimalZ.
Import ListNotations.
Local Open Scope string_scope.
Local Open Scope Z_scope.

(** ** JavaScript values the component relies on *)

(** Truthiness of a string: every string except the empty one. *)
Definition truthy (s : string) : bool := negb (s =? "")%string.

(** [s || undefined] on a string: [undefined] is read as an absent value. *)
Definition orUndefined (s : string) : option string :=
  if truthy s then Some s else None.

(** [s || d] where [s] is a string or [undefined]. *)
Definition orElse (s : option string) (d : string) : string :=
  match s with
  | Some v => if truthy v then v else d
  | None => d
  end.

(** [xs.length > 0 ? xs : undefined] on an array. *)
Definition nonEmptyOrUndefined {A : Type} (xs : list A) : option (list A) :=
  if (0 <? Z.of_nat (List.length xs)) then Some xs else None.

(** White space removed by [String.prototype.trim], restricted to the
    ASCII range: TAB, LF, VT, FF, CR and SPACE. *)
Definition isWhiteSpace (c : ascii) : bool :=
  match N_of_ascii c with
  | 9%N | 10%N | 11%N | 12%N | 13%N | 32%N => true
  | _ => false
  end.

Fixpoint trimStart (s : string) : string :=
  match s with
  | EmptyString => EmptyString
  | String c s' => if isWhiteSpace c then trimStart s' else s
  end.

Fixpoint trimEnd (s : string) : string :=
  match s with
  | EmptyString => EmptyString
  | String c s' =>
      let t := trimEnd s' in
      if isWhiteSpace c && (t =? "")%string then EmptyString else String c t
  end.

Definition trim (s : string) : string := trimEnd (trimStart s).

(** The decimal numeral of an integer, as [toString] prints it. *)
Definition decimal (k : Z) : string := NilZero.string_of_int (Z.to_int k).

(** The [number] type of the language is kept abstract: the form stores
    numbers and hands them on, it never computes with them.  What it needs
    is the value of an integer literal, the conversion [Number(string)],
    the method [toString()], and the two facts that relate them on the
    non-negative safe integers. *)
Class JsNumber (number : Type) := {
  lit : Z -> number;
  Number : string -> number;
  toString : number -> string;
  toString_lit : forall k, 0 <= k < 2 ^ 53 -> toString (lit k) = decimal k;
  Number_decimal : forall k, 0 <= k < 2 ^ 53 -> Number (decimal k) = lit k
}.

(** ** The component's data *)

Inductive TickType : Type := send | attempt | flash | onsight.

Definition TickType_eqb (a b : TickType) : bool :=
  match a, b with
  | send, send | attempt, attempt | flash, flash | onsight, onsight => true
  | _, _ => false
  end.

(** The properties the caller passes in.  The two callbacks are not data:
    their invocations are recorded in the [calls] log below. *)
Record Props : Type := {
  gradeSystem : option string;
  sessionLocation : option string
}.

(** Default value of the destructured [gradeSystem] property. *)
Definition gradeSystemOf (p : Props) : string :=
  match gradeSystem p with
  | Some g => g
  | None => "yds"
  end.

Section FormModel.

Context {number : Type} {JN : JsNumber number}.

(** [getGradesForSystem] lives in [@/utils/gradeSystem]; the form only maps
    over its result. *)
Variable getGradesForSystem : string -> list string.

(** The state cells of the component, one field per [useState]. *)
Record Draft : Type := {
  name : string;
  grade : string;
  location : string;
  tickType : TickType;
  attempts : number;
  height : option number;
  timeOnWall : option number;
  effort : list number;
  notes : string;
  physicalSkills : list string;
  technicalSkills : list string;
  showOptional : bool
}.

(** The argument of [onSubmit]; a property holding [undefined] is an absent
    one ([None]). *)
Record Climb : Type := {
  climb_name : string;
  climb_grade : string;
  climb_tickType : TickType;
  climb_attempts : option number;
  climb_height : option number;
  climb_timeOnWall : option number;
  climb_effort : option number;
  climb_notes : option string;
  climb_physicalSkills : option (list string);
  climb_technicalSkills : option (list string);
  climb_location : option string
}.

(** Invocations of the two callback properties. *)
Inductive Call : Type :=
| OnSubmit (climb : Climb)
| OnCancel.

(** What a handler acts on: the state cells and the log of callback calls. *)
Record World : Type := {
  state : Draft;
  calls : list Call
}.

(** Handlers are state transformers over [World]. *)
Definition M (A : Type) : Type := World -> A * World.

Definition ret {A : Type} (a : A) : M A := fun w => (a, w).

Definition bind {A B : Type} (m : M A) (k : A -> M B) : M B :=
  fun w => let (a, w') := m w in k a w'.

Definition exec {A : Type} (m : M A) (w : World) : World := snd (m w).

Definition modify (f : Draft -> Draft) : M unit :=
  fun w => (tt, {| state := f (state w); calls := calls w |}).

Definition onSubmit (c : Climb) : M unit :=
  fun w => (tt, {| state := state w; calls := calls w ++ [OnSubmit c] |}).

Definition onCancel : M unit :=
  fun w => (tt, {| state := state w; calls := calls w ++ [OnCancel] |}).

(** The state setters returned by [useState]. *)
Definition setName (v : string) : M unit :=
  modify (fun d =>
    {| name := v; grade := grade d; location := location d;
       tickType := tickType d; attempts := attempts d; height := height d;
       timeOnWall := timeOnWall d; effort := effort d; notes := notes d;
       physicalSkills := physicalSkills d;
       technicalSkills := technicalSkills d;
       showOptional := showOptional d |}).

Definition setGrade (v : string) : M unit :=
  modify (fun d =>
    {| name := name d; grade := v; location := location d;
       tickType := tickType d; attempts := attempts d; height := height d;
       timeOnWall := timeOnWall d; effort := effort d; notes := notes d;
       physicalSkills := physicalSkills d;
       technicalSkills := technicalSkills d;
       showOptional := showOptional d |}).

Definition setLocation (v : string) : M unit :=
  modify (fun d =>
    {| name := name d; grade := grade d; location := v;
       tickType := tickType d; attempts := attempts d; height := height d;
       timeOnWall := timeOnWall d; effort := effort d; notes := notes d;
       physicalSkills := physicalSkills d;
       technicalSkills := technicalSkills d;
       showOptional := showOptional d |}).

Definition setTickType (v : TickType) : M unit :=
  modify (fun d =>
    {| name := name d; grade := grade d; location := location d;
       tickType := v; attempts := attempts d; height := height d;
       timeOnWall := timeOnWall d; effort := effort d; notes := notes d;
       physicalSkills := physicalSkills d;
       technicalSkills := technicalSkills d;
       showOptional := showOptional d |}).

Definition setAttempts (v : number) : M unit :=
  modify (fun d =>
    {| name := name d; grade := grade d; location := location d;
       tickType := tickType d; attempts := v; height := height d;
       timeOnWall := timeOnWall d; effort := effort d; notes := notes d;
       physicalSkills := physicalSkills d;
       technicalSkills := technicalSkills d;
       showOptional := showOptional d |}).

Definition setHeight (v : option number) : M unit :=
  modify (fun d =>
    {| name := name d; grade := grade d; location := location d;
       tickType := tickType d; attempts := attempts d; height := v;
       timeOnWall := timeOnWall d; effort := effort d; notes := notes d;
       physicalSkills := physicalSkills d;
       technicalSkills := technicalSkills d;
       showOptional := showOptional d |}).

Definition setTimeOnWall (v : option number) : M unit :=
  modify (fun d =>
    {| name := name d; grade := grade d; location := location d;
       tickType := tickType d; attempts := attempts d; height := height d;
       timeOnWall := v; effort := effort d; notes := notes d;
       physicalSkills := physicalSkills d;
       technicalSkills := technicalSkills d;
       showOptional := showOptional d |}).

Definition setEffort (v : list number) : M unit :=
  modify (fun d =>
    {| name := name d; grade := grade d; location := location d;
       tickType := tickType d; attempts := attempts d; height := height d;
       timeOnWall := timeOnWall d; effort := v; notes := notes d;
       physicalSkills := physicalSkills d;
       technicalSkills := technicalSkills d;
       showOptional := showOptional d |}).

Definition setNotes (v : string) : M unit :=
  modify (fun d =>
    {| name := name d; grade := grade d; location := location d;
       tickType := tickType d; attempts := attempts d; height := height d;
       timeOnWall := timeOnWall d; effort := effort d; notes := v;
       physicalSkills := physicalSkills d;
       technicalSkills := technicalSkills d;
       showOptional := showOptional d |}).

Definition setPhysicalSkills (v : list string) : M unit :=
  modify (fun d =>
    {| name := name d; grade := grade d; location := location d;
       tickType := tickType d; attempts := attempts d; height := height d;
       timeOnWall := timeOnWall d; effort := effort d; notes := notes d;
       physicalSkills := v;
       technicalSkills := technicalSkills d;
       showOptional := showOptional d |}).

Definition setTechnicalSkills (v : list string) : M unit :=
  modify (fun d =>
    {| name := name d; grade := grade d; location := location d;
       tickType := tickType d; attempts := attempts d; height := height d;
       timeOnWall := timeOnWall d; effort := effort d; notes := notes d;
       physicalSkills := physicalSkills d;
       technicalSkills := v;
       showOptional := showOptional d |}).

Definition setShowOptional (v : bool) : M unit :=
  modify (fun d =>
    {| name := name d; grade := grade d; location := location d;
       tickType := tickType d; attempts := attempts d; height := height d;
       timeOnWall := timeOnWall d; effort := effort d; notes := notes d;
       physicalSkills := physicalSkills d;
       technicalSkills := technicalSkills d;
       showOptional := v |}).

Declare Scope handler_scope.
Delimit Scope handler_scope with handler.
Notation "m1 ;; m2" := (bind m1 (fun _ => m2))
  (at level 61, right associativity) : handler_scope.
Local Open Scope handler_scope.

(** ** The component *)

(** The initial values of the state cells (lines 45-58). *)
Definition initialDraft (p : Props) : Draft :=
  {| name := "";
     grade := "";
     location := orElse (sessionLocation p) "";
     tickType := send;
     attempts := lit 1;
     height := None;
     timeOnWall := None;
     effort := [lit 7];
     notes := "";
     physicalSkills := [];
     technicalSkills := [];
     showOptional := false |}.

(** The component as first rendered: initial state, no callback called. *)
Definition mount (p : Props) : World :=
  {| state := initialDraft p; calls := [] |}.

(** [handleSubmit] (lines 60-91).  [s] holds the values of the state cells
    the handler closes over, those of the render it was created in; the
    setters act on the cells themselves.  [e.preventDefault()] concerns the
    browser's own form submission and touches neither the cells nor the
    callbacks. *)
Definition handleSubmit (p : Props) (s : Draft) : M unit :=
  if negb (truthy (name s)) || negb (truthy (grade s)) then ret tt
  else
    onSubmit
      {| climb_name := name s;
         climb_grade := grade s;
         climb_location := orUndefined (location s);
         climb_tickType := tickType s;
         climb_attempts :=
           if TickType_eqb (tickType s) attempt then Some (attempts s)
           else None;
         climb_height := height s;
         climb_timeOnWall := timeOnWall s;
         climb_effort := nth_error (effort s) 0;
         climb_notes := orUndefined (notes s);
         climb_physicalSkills := nonEmptyOrUndefined (physicalSkills s);
         climb_technicalSkills := nonEmptyOrUndefined (technicalSkills s) |} ;;
    setName "" ;;
    setGrade "" ;;
    setLocation (orElse (sessionLocation p) "") ;;
    setTickType send ;;
    setAttempts (lit 1) ;;
    setHeight None ;;
    setTimeOnWall None ;;
    setEffort [lit 7] ;;
    setNotes "" ;;
    setPhysicalSkills [] ;;
    setTechnicalSkills [] ;;
    setShowOptional false.

(** The [disabled] property of the submit button (line 303), and its
    negation: whether the draft can be submitted. *)
Definition submitDisabled (s : Draft) : bool :=
  negb (truthy (name s)) || negb (truthy (grade s)).

Definition canSubmit (s : Draft) : bool := negb (submitDisabled s).

(** Submitting the draft [s]: the handler runs on a world holding [s] and the
    calls made so far. *)
Definition submit (p : Props) (s : Draft) (cs : list Call) : World :=
  exec (handleSubmit p s) {| state := s; calls := cs |}.

(** The record a submission of [s] hands to [onSubmit], if any. *)
Definition toRecord (p : Props) (s : Draft) : option Climb :=
  match calls (submit p s []) with
  | [OnSubmit c] => Some c
  | _ => None
  end.

(** The user's actions on the rendered form. *)
Inductive Event : Type :=
| NameChange (value : string)
| GradeChange (value : string)
| TickTypeClick (type : TickType)
| AttemptsChange (value : string)
| ToggleOptional
| LocationChange (value : string)
| HeightChange (value : string)
| TimeOnWallChange (value : string)
| EffortChange (value : list number)
| PhysicalSkillsChange (value : list string)
| TechnicalSkillsChange (value : list string)
| NotesChange (value : string)
| Submit
| Cancel.

(** The handler attached to each action in the render of [s]
    (lines 103-309). *)
Definition handle (p : Props) (s : Draft) (e : Event) : M unit :=
  match e with
  | NameChange value => setName value
  | GradeChange value => setGrade value
  | TickTypeClick type =>
      setTickType type ;;
      if negb (TickType_eqb type attempt) then setAttempts (lit 1)
      else ret tt
  | AttemptsChange value => setAttempts (Number value)
  | ToggleOptional => setShowOptional (negb (showOptional s))
  | LocationChange value => setLocation value
  | HeightChange value =>
      setHeight (if truthy value then Some (Number value) else None)
  | TimeOnWallChange value =>
      setTimeOnWall (if truthy value then Some (Number value) else None)
  | EffortChange value => setEffort value
  | PhysicalSkillsChange value => setPhysicalSkills value
  | TechnicalSkillsChange value => setTechnicalSkills value
  | NotesChange value => setNotes value
  | Submit => handleSubmit p s
  | Cancel => onCancel
  end.

(** The values offered by the attempts [Select] (lines 178-182). *)
Definition attemptsItems : list string :=
  map (fun num => toString (lit num)) [1; 2; 3; 4; 5].

(** Whether the render of [s] offers the action: a [Select] reports one of
    its items, the attempts [Select] exists only for the tick type
    [attempt], and the optional fields only while [showOptional] holds.
    [Submit] is always let through, so that the guard of [handleSubmit]
    is what stops an incomplete draft. *)
Definition offered (p : Props) (s : Draft) (e : Event) : bool :=
  match e with
  | GradeChange value =>
      existsb (String.eqb value) (getGradesForSystem (gradeSystemOf p))
  | AttemptsChange value =>
      TickType_eqb (tickType s) attempt
      && existsb (String.eqb value) attemptsItems
  | LocationChange _ | HeightChange _ | TimeOnWallChange _ | EffortChange _
  | PhysicalSkillsChange _ | TechnicalSkillsChange _ | NotesChange _ =>
      showOptional s
  | NameChange _ | TickTypeClick _ | ToggleOptional | Submit | Cancel => true
  end.

(** One action: the handler of the current render runs to completion. *)
Definition dispatch (p : Props) (w : World) (e : Event) : option World :=
  if offered p (state w) e then Some (exec (handle p (state w) e) w)
  else None.

Fixpoint run (p : Props) (es : list Event) (w : World) : option World :=
  match es with
  | [] => Some w
  | e :: es' =>
      match dispatch p w e with
      | Some w' => run p es' w'
      | None => None
      end
  end.

(** The worlds the mounted component can be brought to. *)
Inductive Reachable (p : Props) : World -> Prop :=
| Reachable_mount : Reachable p (mount p)
| Reachable_dispatch (w w' : World) (e : Event) :
    Reachable p w -> dispatch p w e = Some w' -> Reachable p w'.

(** The domain of [attempts]: one of the integers the attempts [Select]
    lists. *)
Definition attemptsInRange (s : Draft) : Prop :=
  exists k : Z, 1 <= k <= 5 /\ attempts s = lit k.

End FormModel.

(** ** What the component renders *)

(** Truthiness of a number, as [height || ""] tests it: among the safe
    non-negative integers only 0 is falsy. *)
Class JsNumberTruthy (number : Type) {JN : JsNumber number} := {
  numberTruthy : number -> bool;
  numberTruthy_lit :
    forall k, 0 <= k < 2 ^ 53 -> numberTruthy (lit k) = negb (k =? 0)
}.

Section FormView.

Context {number : Type} {JN : JsNumber number} {JT : JsNumberTruthy number}.
Variable getGradesForSystem : string -> list string.

(** The colour classes of the selected badge (lines 93-98). *)
Definition tickTypeColors (type : TickType) : string :=
  match type with
  | send => "bg-green-100 text-green-800 border-green-200"
  | attempt => "bg-orange-100 text-orange-800 border-orange-200"
  | flash => "bg-blue-100 text-blue-800 border-blue-200"
  | onsight => "bg-purple-100 text-purple-800 border-purple-200"
  end.

(** The [className] of the badge of [type] in the render of [s]
    (lines 145-149). *)
Definition badgeClassName (s : @Draft number) (type : TickType) : string :=
  "h-12 flex items-center justify-center cursor-pointer transition-all capitalize "
  ++ (if TickType_eqb (tickType s) type then tickTypeColors type
      else "border-stone-300 text-stone-600 hover:bg-stone-50").

(** The items of the grade [Select] (lines 100 and 129-133). *)
Definition availableGrades (p : Props) : list string :=
  getGradesForSystem (gradeSystemOf p).

(** The [value] of the attempts [Select], which is rendered only for the
    tick type [attempt] (lines 164-170). *)
Definition attemptsSelectValue (s : @Draft number) : option string :=
  if TickType_eqb (tickType s) attempt then Some (toString (attempts s))
  else None.

(** The [value] of the two number inputs, [height || ""] and
    [timeOnWall || ""] (lines 222 and 239); a number is shown by its
    [toString]. *)
Definition heightInputValue (s : @Draft number) : string :=
  match height s with
  | Some h => if numberTruthy h then toString h else ""
  | None => ""
  end.

Definition timeOnWallInputValue (s : @Draft number) : string :=
  match timeOnWall s with
  | Some t => if numberTruthy t then toString t else ""
  | None => ""
  end.

(** ** Predicates on drafts, records and actions *)

(** A value a number input can store: unset, or [Number] of a non-empty
    text (lines 223-227). *)
Definition enterable (v : option number) : Prop :=
  match v with
  | None => True
  | Some x => exists value : string, value <> "" /\ x = Number value
  end.

(** The drafts the handlers can build: the grade is still empty or one of
    the items of the grade [Select], attempts is one of 1..5 and is 1
    unless the tick type is [attempt], and height and time on wall are
    values of their inputs. *)
Definition validDraft (p : Props) (s : @Draft number) : Prop :=
  (grade s = "" \/ In (grade s) (availableGrades p))
  /\ attemptsInRange s
  /\ (tickType s <> attempt -> attempts s = lit 1)
  /\ enterable (height s)
  /\ enterable (timeOnWall s).

(** A record as [handleSubmit] builds it from a valid draft. *)
Definition wellFormedRecord (p : Props) (c : @Climb number) : Prop :=
  climb_name c <> ""
  /\ climb_grade c <> ""
  /\ In (climb_grade c) (availableGrades p)
  /\ (climb_tickType c = attempt ->
        exists k : Z, 1 <= k <= 5 /\ climb_attempts c = Some (lit k))
  /\ (climb_tickType c <> attempt -> climb_attempts c = None)
  /\ climb_location c <> Some ""
  /\ climb_notes c <> Some ""
  /\ climb_physicalSkills c <> Some []
  /\ climb_technicalSkills c <> Some [].

(** The actions whose handlers call a callback property. *)
Definition callsBack (e : @Event number) : bool :=
  match e with
  | Submit | Cancel => true
  | _ => false
  end.

Definition isNameChange (e : @Event number) : bool :=
  match e with
  | NameChange _ => true
  | _ => false
  end.

Definition isGradeChange (e : @Event number) : bool :=
  match e with
  | GradeChange _ => true
  | _ => false
  end.

(** The slider reports at least one thumb value. *)
Definition sliderReportsValue (e : @Event number) : bool :=
  match e with
  | EffortChange [] => false
  | _ => true
  end.

(** The records handed to [onSubmit], oldest first. *)
Fixpoint submitted (cs : list (@Call number)) : list (@Climb number) :=
  match cs with
  | [] => []
  | OnSubmit c :: cs' => c :: submitted cs'
  | OnCancel :: cs' => submitted cs'
  end.

(** The world [w] with the calls [cs] made before its own. *)
Definition withEarlierCalls (cs : list (@Call number)) (w : @World number)
  : @World number :=
  {| state := state w; calls := cs ++ calls w |}.

End FormView.

(** ** Concrete properties and drafts *)

(** An instance over the integers, with a separate [NaN]; it runs the model
    on concrete inputs. *)
Module IntNumber.

Inductive t : Type :=
| NaN
| Int (z : Z).

Definition lit (k : Z) : t := Int k.

Definition Number (s : string) : t :=
  match NilZero.int_of_string s with
  | Some d => Int (Z.of_int d)
  | None => NaN
  end.

Definition toString (x : t) : string :=
  match x with
  | Int k => decimal k
  | NaN => "NaN"
  end.

Lemma toString_lit (k : Z) : 0 <= k < 2 ^ 53 -> toString (lit k) = decimal k.
Proof. reflexivity. Qed.

Lemma to_int_not_nil (k : Z) :
  Z.to_int k <> Decimal.Pos Decimal.Nil /\ Z.to_int k <> Decimal.Neg Decimal.Nil.
Proof.
  destruct k as [|q|q]; cbn; split; try discriminate.
  - intros E. injection E as E.
    pose proof (DecimalPos.Unsigned.to_uint_nonnil q) as Hq. contradiction.
  - intros E. injection E as E.
    pose proof (DecimalPos.Unsigned.to_uint_nonnil q) as Hq. contradiction.
Qed.

Lemma Number_decimal (k : Z) : 0 <= k < 2 ^ 53 -> Number (decimal k) = lit k.
Proof.
  intros _. unfold Number, decimal, lit.
  destruct (to_int_not_nil k) as [Hp Hn].
  rewrite (NilZero.isi _ Hp Hn). now rewrite DecimalZ.of_to.
Qed.

End IntNumber.

#[export] Instance IntNumber_JsNumber : JsNumber IntNumber.t := {
  lit := IntNumber.lit;
  Number := IntNumber.Number;
  toString := IntNumber.toString;
  toString_lit := IntNumber.toString_lit;
  Number_decimal := IntNumber.Number_decimal
}.

Lemma IntNumber_truthy_lit (k : Z) :
  0 <= k < 2 ^ 53 ->
  (match IntNumber.lit k with
   | IntNumber.Int z => negb (z =? 0)
   | IntNumber.NaN => false
   end) = negb (k =? 0).
Proof. reflexivity. Qed.

#[export] Instance IntNumber_JsNumberTruthy : JsNumberTruthy IntNumber.t := {
  numberTruthy := fun x =>
    match x with
    | IntNumber.Int z => negb (z =? 0)
    | IntNumber.NaN => false
    end;
  numberTruthy_lit := IntNumber_truthy_lit
}.

Definition gymProps : Props :=
  {| gradeSystem := None; sessionLocation := Some "Gym X" |}.

Definition ydsGrades (system : string) : list string :=
  if (system =? "yds")%string then ["5.9"; "5.10a"; "5.10b"] else [].

(** The draft after typing a single space as the name and choosing 5.9. *)
Definition blankNameDraft : @Draft IntNumber.t :=
  {| name := " "; grade := "5.9"; location := "Gym X"; tickType := send;
     attempts := lit 1; height := None; timeOnWall := None;
     effort := [lit 7]; notes := ""; physicalSkills := [];
     technicalSkills := []; showOptional := false |}.

(** The draft after typing a name with a space on either side. *)
Definition paddedNameDraft : @Draft IntNumber.t :=
  {| name := " Crimpy "; grade := "5.10a"; location := "Gym X";
     tickType := send; attempts := lit 1; height := None;
     timeOnWall := None; effort := [lit 7]; notes := "";
     physicalSkills := []; technicalSkills := []; showOptional := false |}.

(** A draft with every optional field filled in and the section open. *)
Definition fullDraft : @Draft IntNumber.t :=
  {| name := "Crimpy"; grade := "5.10a"; location := "Wall 3";
     tickType := attempt; attempts := lit 3; height := Some (lit 0);
     timeOnWall := Some (lit 12); effort := [lit 9]; notes := "pumpy";
     physicalSkills := ["power"]; technicalSkills := ["heel hook"];
     showOptional := true |}.

(** A draft that lacks a name. *)
Definition namelessDraft : @Draft IntNumber.t :=
  {| name := ""; grade := "5.9"; location := "Gym X"; tickType := attempt;
     attempts := lit 4; height := None; timeOnWall := None;
     effort := [lit 7]; notes := "wet"; physicalSkills := [];
     technicalSkills := []; showOptional := true |}.

(** The draft after typing a plain name and choosing a grade. *)
Definition plainDraft : @Draft IntNumber.t :=
  {| name := "Crimpy"; grade := "5.10a"; location := "Gym X";
     tickType := send; attempts := lit 1; height := None;
     timeOnWall := None; effort := [lit 7]; notes := "";
     physicalSkills := []; technicalSkills := []; showOptional := false |}.

(** Logging three attempts on a route, up to the click on the submit
    button, and the world these actions lead to. *)
Definition attemptEvents : list (@Event IntNumber.t) :=
  [NameChange "X"; GradeChange "5.9"; TickTypeClick attempt;
   AttemptsChange "3"].

Definition attemptWorld : @World IntNumber.t :=
  {| state :=
       {| name := "X"; grade := "5.9"; location := "Gym X";
          tickType := attempt; attempts := lit 3; height := None;
          timeOnWall := None; effort := [lit 7]; notes := "";
          physicalSkills := []; technicalSkills := [];
          showOptional := false |};
     calls := [] |}.

(** A grade catalogue without any grade. *)
Definition noGrades (system : string) : list string := [].

(** Choosing three attempts and then clicking the flash badge. *)
Definition flashEvents : list (@Event IntNumber.t) :=
  [TickTypeClick attempt; AttemptsChange "3"; TickTypeClick flash].

Definition flashWorld : @World IntNumber.t :=
  {| state :=
       {| name := ""; grade := ""; location := "Gym X"; tickType := flash;
          attempts := lit 1; height := None; timeOnWall := None;
          effort := [lit 7]; notes := ""; physicalSkills := [];
          technicalSkills := []; showOptional := false |};
     calls := [] |}.

(** The record of [attemptWorld] and the world after its submission. *)
Definition attemptClimb : @Climb IntNumber.t :=
  {| climb_name := "X"; climb_grade := "5.9"; climb_tickType := attempt;
     climb_attempts := Some (lit 3); climb_height := None;
     climb_timeOnWall := None; climb_effort := Some (lit 7);
     climb_notes := None; climb_physicalSkills := None;
     climb_technicalSkills := None; climb_location := Some "Gym X" |}.

Definition submittedWorld : @World IntNumber.t :=
  {| state := initialDraft gymProps; calls := [OnSubmit attemptClimb] |}.

(** ** Properties *)

Section FormProperties.

Context {number : Type} {JN : JsNumber number}.
Variable getGradesForSystem : string -> list string.

Implicit Types (p : Props) (s : @Draft number) (w : @World number).

(** *** Strings and the submit guard *)

Lemma truthy_true_iff (v : string) : truthy v = true <-> v <> "".
Proof.
  unfold truthy. destruct (String.eqb_spec v ""); cbn; split;
    congruence || tauto.
Qed.

Lemma truthy_false_iff (v : string) : truthy v = false <-> v = "".
Proof.
  unfold truthy. destruct (String.eqb_spec v ""); cbn; split;
    congruence || tauto.
Qed.

Lemma orUndefined_empty : orUndefined "" = None.
Proof. reflexivity. Qed.

Lemma orUndefined_nonempty (v : string) : v <> "" -> orUndefined v = Some v.
Proof.
  intros Hv. unfold orUndefined.
  now rewrite (proj2 (truthy_true_iff v) Hv).
Qed.

Lemma nonEmptyOrUndefined_nil {A : Type} :
  nonEmptyOrUndefined (@nil A) = None.
Proof. reflexivity. Qed.

Lemma nonEmptyOrUndefined_cons {A : Type} (x : A) (xs : list A) :
  nonEmptyOrUndefined (x :: xs) = Some (x :: xs).
Proof.
  unfold nonEmptyOrUndefined.
  destruct (Z.ltb_spec 0 (Z.of_nat (List.length (x :: xs)))) as [_|H];
    [reflexivity|].
  cbn [List.length] in H. lia.
Qed.

Lemma orElse_sessionLocation (l : option string) :
  orElse l "" = match l with Some v => v | None => "" end.
Proof.
  destruct l as [v|]; cbn; [|reflexivity].
  destruct (truthy v) eqn:E; [reflexivity|].
  symmetry. now apply truthy_false_iff.
Qed.

Lemma canSubmit_true_iff s :
  canSubmit s = true <-> name s <> "" /\ grade s <> "".
Proof.
  unfold canSubmit, submitDisabled.
  rewrite negb_true_iff, orb_false_iff, !negb_false_iff, !truthy_true_iff.
  tauto.
Qed.

Lemma canSubmit_false_iff s :
  canSubmit s = false <-> name s = "" \/ grade s = "".
Proof.
  unfold canSubmit, submitDisabled.
  rewrite negb_false_iff, orb_true_iff, !negb_true_iff, !truthy_false_iff.
  tauto.
Qed.

(** *** What [handleSubmit] does on either side of its guard *)

Lemma handleSubmit_rejected p s w :
  canSubmit s = false -> handleSubmit p s w = (tt, w).
Proof.
  unfold canSubmit, submitDisabled, handleSubmit. intros H.
  apply negb_false_iff in H. now rewrite H.
Qed.

Lemma handleSubmit_accepted p s w :
  canSubmit s = true ->
  exists c : Climb,
    handleSubmit p s w =
      (tt, {| state := initialDraft p; calls := calls w ++ [OnSubmit c] |})
    /\ climb_name c = name s
    /\ climb_grade c = grade s
    /\ climb_tickType c = tickType s
    /\ climb_attempts c =
         (if TickType_eqb (tickType s) attempt then Some (attempts s)
          else None)
    /\ climb_height c = height s
    /\ climb_timeOnWall c = timeOnWall s
    /\ climb_effort c = nth_error (effort s) 0
    /\ climb_notes c = orUndefined (notes s)
    /\ climb_physicalSkills c = nonEmptyOrUndefined (physicalSkills s)
    /\ climb_technicalSkills c = nonEmptyOrUndefined (technicalSkills s)
    /\ climb_location c = orUndefined (location s).
Proof.
  unfold canSubmit, submitDisabled, handleSubmit. intros H.
  apply negb_true_iff in H. rewrite H.
  eexists. split; [reflexivity|]. cbn. repeat split.
Qed.

Lemma toRecord_rejected p s : canSubmit s = false -> toRecord p s = None.
Proof.
  intros H. unfold toRecord, submit, exec.
  now rewrite (handleSubmit_rejected p s _ H).
Qed.

Lemma toRecord_accepted p s :
  canSubmit s = true ->
  exists c : Climb,
    toRecord p s = Some c
    /\ (forall cs, submit p s cs =
          {| state := initialDraft p; calls := cs ++ [OnSubmit c] |})
    /\ climb_name c = name s
    /\ climb_grade c = grade s
    /\ climb_tickType c = tickType s
    /\ climb_attempts c =
         (if TickType_eqb (tickType s) attempt then Some (attempts s)
          else None)
    /\ climb_height c = height s
    /\ climb_timeOnWall c = timeOnWall s
    /\ climb_effort c = nth_error (effort s) 0
    /\ climb_notes c = orUndefined (notes s)
    /\ climb_physicalSkills c = nonEmptyOrUndefined (physicalSkills s)
    /\ climb_technicalSkills c = nonEmptyOrUndefined (technicalSkills s)
    /\ climb_location c = orUndefined (location s).
Proof.
  unfold canSubmit, submitDisabled. intros H. apply negb_true_iff in H.
  unfold toRecord, submit, exec, handleSubmit. rewrite H. cbn.
  eexists. split; [reflexivity|]. cbn. repeat split.
Qed.

Lemma toRecord_Some_canSubmit p s c :
  toRecord p s = Some c -> canSubmit s = true.
Proof.
  intros H. destruct (canSubmit s) eqn:E; [reflexivity|].
  rewrite (toRecord_rejected p s E) in H. discriminate.
Qed.

(** *** Validation *)

(** C1 (as the code has it): a draft can be submitted exactly when its name
    and its grade are both different from the empty string, the name being
    compared as typed, without trimming; no other field of the draft has
    any influence on [canSubmit], and [handleSubmit] hands a record to
    [onSubmit] exactly on the drafts [canSubmit] accepts. *)
Theorem canSubmit_name_and_grade s :
  (canSubmit s = true <-> name s <> "" /\ grade s <> "")
  /\ (forall s', name s' = name s -> grade s' = grade s ->
        canSubmit s' = canSubmit s)
  /\ (forall p, toRecord p s <> None <-> canSubmit s = true).
Proof.
  split; [apply canSubmit_true_iff|split].
  - intros s' Hn Hg. unfold canSubmit, submitDisabled. now rewrite Hn, Hg.
  - intros p. split.
    + destruct (toRecord p s) as [c|] eqn:E; [|congruence].
      intros _. exact (toRecord_Some_canSubmit p s c E).
    + intros H. destruct (toRecord_accepted p s H) as (c & Hc & _).
      congruence.
Qed.

(** C6: on a draft that cannot be submitted, [handleSubmit] returns at its
    guard: the world it ran in is left as it was, so [onSubmit] is not
    called, no record is produced, and no state cell changes. *)
Theorem rejected_submit_changes_nothing p s :
  canSubmit s = false ->
  (forall w, handleSubmit p s w = (tt, w))
  /\ toRecord p s = None
  /\ (forall cs, submit p s cs = {| state := s; calls := cs |}).
Proof.
  intros H. split; [|split].
  - intros w. now apply handleSubmit_rejected.
  - now apply toRecord_rejected.
  - intros cs. unfold submit, exec. now rewrite handleSubmit_rejected.
Qed.

(** *** The record handed to [onSubmit] *)

(** C4 (as the code has it): a draft that can be submitted yields a record
    whose name is the draft's name as typed, not trimmed, and whose grade is
    the draft's grade. *)
Theorem record_name_and_grade_verbatim p s :
  canSubmit s = true ->
  exists c : Climb,
    toRecord p s = Some c /\ climb_name c = name s /\ climb_grade c = grade s.
Proof.
  intros H.
  destruct (toRecord_accepted p s H) as (c & Hc & _ & Hn & Hg & _).
  now exists c.
Qed.

(** C5: in the record of a draft that can be submitted, [location] and
    [notes] are absent when empty and the draft's string otherwise,
    [height] and [timeOnWall] are absent when unset and the draft's number
    otherwise, and each skill list is absent when empty and the draft's
    list otherwise. *)
Theorem optional_fields_omitted_or_verbatim p s :
  canSubmit s = true ->
  exists c : Climb,
    toRecord p s = Some c
    /\ (location s = "" -> climb_location c = None)
    /\ (location s <> "" -> climb_location c = Some (location s))
    /\ (height s = None -> climb_height c = None)
    /\ (forall v, height s = Some v -> climb_height c = Some v)
    /\ (timeOnWall s = None -> climb_timeOnWall c = None)
    /\ (forall v, timeOnWall s = Some v -> climb_timeOnWall c = Some v)
    /\ (notes s = "" -> climb_notes c = None)
    /\ (notes s <> "" -> climb_notes c = Some (notes s))
    /\ (physicalSkills s = [] -> climb_physicalSkills c = None)
    /\ (physicalSkills s <> [] ->
          climb_physicalSkills c = Some (physicalSkills s))
    /\ (technicalSkills s = [] -> climb_technicalSkills c = None)
    /\ (technicalSkills s <> [] ->
          climb_technicalSkills c = Some (technicalSkills s)).
Proof.
  intros H.
  destruct (toRecord_accepted p s H)
    as (c & Hc & _ & _ & _ & _ & _ & Hh & Ht & _ & Hno & Hph & Hte & Hl).
  exists c. split; [exact Hc|].
  rewrite Hl, Hh, Ht, Hno, Hph, Hte.
  repeat match goal with |- _ /\ _ => split end.
  - intros ->. apply orUndefined_empty.
  - apply orUndefined_nonempty.
  - congruence.
  - congruence.
  - congruence.
  - congruence.
  - intros ->. apply orUndefined_empty.
  - apply orUndefined_nonempty.
  - intros ->. apply nonEmptyOrUndefined_nil.
  - destruct (physicalSkills s); [congruence|].
    intros _. apply nonEmptyOrUndefined_cons.
  - intros ->. apply nonEmptyOrUndefined_nil.
  - destruct (technicalSkills s); [congruence|].
    intros _. apply nonEmptyOrUndefined_cons.
Qed.

(** *** Reset after a submission *)

(** C7: when [handleSubmit] runs on a draft that can be submitted, it calls
    [onSubmit] once and leaves every state cell at its initial value: name
    and grade empty, tick type [send], attempts 1, effort [[7]], height and
    time on wall unset, notes empty, both skill lists empty, and location
    the session location, or empty when none was passed. *)
Theorem accepted_submit_resets_draft p s cs :
  canSubmit s = true ->
  (exists c : Climb, calls (submit p s cs) = (cs ++ [OnSubmit c])%list)
  /\ state (submit p s cs) = initialDraft p
  /\ name (state (submit p s cs)) = ""
  /\ grade (state (submit p s cs)) = ""
  /\ tickType (state (submit p s cs)) = send
  /\ attempts (state (submit p s cs)) = lit 1
  /\ effort (state (submit p s cs)) = [lit 7]
  /\ height (state (submit p s cs)) = None
  /\ timeOnWall (state (submit p s cs)) = None
  /\ notes (state (submit p s cs)) = ""
  /\ physicalSkills (state (submit p s cs)) = []
  /\ technicalSkills (state (submit p s cs)) = []
  /\ location (state (submit p s cs)) =
       match sessionLocation p with Some l => l | None => "" end.
Proof.
  intros H.
  destruct (toRecord_accepted p s H) as (c & _ & Hsub & _).
  rewrite (Hsub cs). cbn [state calls].
  split; [now exists c|].
  repeat match goal with |- _ /\ _ => split end; try reflexivity.
  cbn [initialDraft location]. apply orElse_sessionLocation.
Qed.

(** C10: a submission that produced a record also sets [showOptional] to
    false, whatever it was before. *)
Theorem accepted_submit_collapses_optional p s cs :
  canSubmit s = true -> showOptional (state (submit p s cs)) = false.
Proof.
  intros H.
  destruct (toRecord_accepted p s H) as (c & _ & Hsub & _).
  now rewrite (Hsub cs).
Qed.

(** *** The optional-fields toggle *)

Lemma dispatch_toggle p w :
  dispatch getGradesForSystem p w ToggleOptional =
    Some (exec (setShowOptional (negb (showOptional (state w)))) w).
Proof. reflexivity. Qed.

Lemma run_toggles p (n : nat) :
  forall w, exists w',
    run getGradesForSystem p (repeat ToggleOptional n) w = Some w'
    /\ calls w' = calls w
    /\ name (state w') = name (state w)
    /\ grade (state w') = grade (state w)
    /\ location (state w') = location (state w)
    /\ tickType (state w') = tickType (state w)
    /\ attempts (state w') = attempts (state w)
    /\ height (state w') = height (state w)
    /\ timeOnWall (state w') = timeOnWall (state w)
    /\ effort (state w') = effort (state w)
    /\ notes (state w') = notes (state w)
    /\ physicalSkills (state w') = physicalSkills (state w)
    /\ technicalSkills (state w') = technicalSkills (state w)
    /\ showOptional (state w') =
         (if Nat.even n then showOptional (state w)
          else negb (showOptional (state w))).
Proof.
  induction n as [|n IH]; intros w.
  - exists w. cbn. repeat match goal with |- _ /\ _ => split end; reflexivity.
  - cbn [repeat run].
    rewrite dispatch_toggle.
    destruct (IH (exec (setShowOptional (negb (showOptional (state w)))) w))
      as (w' & Hrun & Hc & Hn & Hg & Hl & Hk & Ha & Hh & Ht & He & Hno & Hp
          & Hte & Hs).
    exists w'. split; [exact Hrun|].
    cbn in Hc, Hn, Hg, Hl, Hk, Ha, Hh, Ht, He, Hno, Hp, Hte, Hs.
    repeat match goal with |- _ /\ _ => split end; try assumption.
    rewrite Hs, Nat.even_succ, <- Nat.negb_even.
    destruct (Nat.even n), (showOptional (state w)); reflexivity.
Qed.

(** C8: toggling the optional section any number of times changes nothing
    but the [showOptional] flag: no callback is called and the other eleven
    state cells keep their values; the flag itself is flipped once per
    toggle, so that two toggles (shown, hidden, shown again) give back the
    very same world. *)
Theorem toggle_optional_frame p w :
  (forall n : nat, exists w',
      run getGradesForSystem p (repeat ToggleOptional n) w = Some w'
      /\ calls w' = calls w
      /\ name (state w') = name (state w)
      /\ grade (state w') = grade (state w)
      /\ location (state w') = location (state w)
      /\ tickType (state w') = tickType (state w)
      /\ attempts (state w') = attempts (state w)
      /\ height (state w') = height (state w)
      /\ timeOnWall (state w') = timeOnWall (state w)
      /\ effort (state w') = effort (state w)
      /\ notes (state w') = notes (state w)
      /\ physicalSkills (state w') = physicalSkills (state w)
      /\ technicalSkills (state w') = technicalSkills (state w)
      /\ showOptional (state w') =
           (if Nat.even n then showOptional (state w)
            else negb (showOptional (state w))))
  /\ run getGradesForSystem p [ToggleOptional; ToggleOptional] w = Some w.
Proof.
  split.
  - intros n. apply run_toggles.
  - destruct w as [[n g l k a h t e no ph te b] cs]. cbn.
    now rewrite negb_involutive.
Qed.

(** *** Tick type and attempts *)

Lemma small_lt_safe (k : Z) : 0 <= k <= 5 -> 0 <= k < 2 ^ 53.
Proof.
  intros H. assert (E : 2 ^ 53 = 9007199254740992) by reflexivity. lia.
Qed.

(** [Number] reads back what [toString] printed for an item of the
    attempts [Select]. *)
Lemma Number_toString_item (k : Z) :
  0 <= k <= 5 -> Number (toString (lit k)) = lit k.
Proof.
  intros H. apply small_lt_safe in H.
  now rewrite toString_lit, Number_decimal.
Qed.

Lemma attemptsItems_offered (k : Z) :
  1 <= k <= 5 -> existsb (String.eqb (toString (lit k))) attemptsItems = true.
Proof.
  intros H. apply existsb_exists. exists (toString (lit k)).
  split; [|apply String.eqb_refl].
  unfold attemptsItems.
  apply (in_map (fun num => toString (lit num))). cbn.
  assert (k = 1 \/ k = 2 \/ k = 3 \/ k = 4 \/ k = 5) by lia.
  intuition auto.
Qed.

Lemma attemptsItems_inv (value : string) :
  existsb (String.eqb value) attemptsItems = true ->
  exists k : Z, 1 <= k <= 5 /\ value = toString (lit k).
Proof.
  intros H. apply existsb_exists in H. destruct H as (x & Hin & Heq).
  apply String.eqb_eq in Heq. subst x.
  unfold attemptsItems in Hin. apply in_map_iff in Hin.
  destruct Hin as (k & Hk & Hin). exists k. split; [|now symmetry].
  cbn in Hin. intuition lia.
Qed.

(** Every rendered form keeps [attempts] among 1..5. *)
Lemma dispatch_attemptsInRange p w w' (e : Event) :
  attemptsInRange (state w) ->
  dispatch getGradesForSystem p w e = Some w' ->
  attemptsInRange (state w').
Proof.
  intros Inv. unfold dispatch.
  destruct (offered getGradesForSystem p (state w) e) eqn:Hoff;
    [|discriminate].
  intros [= <-].
  destruct e as [v|v|k|v| |v|v|v|v|v|v|v| | ]; try exact Inv.
  - (* TickTypeClick *)
    destruct k; cbn; try exact Inv; exists 1; (split; [lia|reflexivity]).
  - (* AttemptsChange *)
    cbn in Hoff. apply andb_true_iff in Hoff. destruct Hoff as [_ Hitem].
    destruct (attemptsItems_inv v Hitem) as (k & Hk & ->).
    exists k. split; [exact Hk|]. cbn. apply Number_toString_item. lia.
  - (* Submit *)
    cbn [handle]. destruct (canSubmit (state w)) eqn:Hcan.
    + destruct (handleSubmit_accepted p (state w) w Hcan) as (c & Hrun & _).
      unfold exec. rewrite Hrun. cbn. exists 1. split; [lia|reflexivity].
    + unfold exec. now rewrite (handleSubmit_rejected p (state w) w Hcan).
Qed.

Lemma Reachable_attemptsInRange p w :
  Reachable getGradesForSystem p w -> attemptsInRange (state w).
Proof.
  induction 1 as [|w w' e _ IH Hstep].
  - exists 1. split; [lia|reflexivity].
  - exact (dispatch_attemptsInRange p w w' e IH Hstep).
Qed.

Lemma Reachable_run p (es : list Event) :
  forall w w',
    Reachable getGradesForSystem p w ->
    run getGradesForSystem p es w = Some w' ->
    Reachable getGradesForSystem p w'.
Proof.
  induction es as [|e es IH]; intros w w' Hw; cbn.
  - now intros [= <-].
  - destruct (dispatch getGradesForSystem p w e) as [w1|] eqn:Hstep;
      [|discriminate].
    apply IH. exact (Reachable_dispatch _ p w w1 e Hw Hstep).
Qed.

(** C2: the click handler of a tick-type badge other than [attempt] sets
    [attempts] to 1 whatever it was; so, from any world, clicking
    [attempt], choosing any of the attempts 1..5 (which the draft then
    holds) and clicking [send] ends with tick type [send] and
    [attempts] 1. *)
Theorem tickType_away_from_attempt_resets_attempts p :
  (forall s w (type : TickType),
      type <> attempt ->
      attempts (state (exec (handle p s (TickTypeClick type)) w)) = lit 1
      /\ tickType (state (exec (handle p s (TickTypeClick type)) w)) = type)
  /\ (forall w (k : Z),
        1 <= k <= 5 ->
        exists w1 w2 w3,
          dispatch getGradesForSystem p w (TickTypeClick attempt) = Some w1
          /\ dispatch getGradesForSystem p w1
               (AttemptsChange (toString (lit k))) = Some w2
          /\ tickType (state w2) = attempt
          /\ attempts (state w2) = lit k
          /\ dispatch getGradesForSystem p w2 (TickTypeClick send) = Some w3
          /\ tickType (state w3) = send
          /\ attempts (state w3) = lit 1).
Proof.
  split.
  - intros s w type Htype. destruct type; try congruence; cbn; auto.
  - intros w k Hk. eexists. eexists. eexists.
    split; [reflexivity|]. split.
    + unfold dispatch. cbn -[attemptsItems].
      rewrite (attemptsItems_offered k Hk). reflexivity.
    + cbn. rewrite Number_toString_item by lia. repeat split.
Qed.

(** C3: the record of a submission holds [attempts] exactly when the tick
    type is [attempt]; and in every world the form can be brought to, the
    value it then holds is one of the integers 1..5. *)
Theorem attempts_key_iff_attempt p :
  (forall s (c : Climb),
      toRecord p s = Some c ->
      (climb_attempts c <> None <-> tickType s = attempt))
  /\ (forall w (c : Climb),
        Reachable getGradesForSystem p w ->
        toRecord p (state w) = Some c ->
        (tickType (state w) = attempt ->
           exists k : Z, 1 <= k <= 5 /\ climb_attempts c = Some (lit k))
        /\ (tickType (state w) <> attempt -> climb_attempts c = None)).
Proof.
  assert (Hrec : forall s (c : Climb), toRecord p s = Some c ->
            climb_attempts c =
              if TickType_eqb (tickType s) attempt then Some (attempts s)
              else None).
  { intros s c Hc.
    destruct (toRecord_accepted p s (toRecord_Some_canSubmit p s c Hc))
      as (c' & Hc' & _ & _ & _ & _ & Ha & _).
    congruence. }
  split.
  - intros s c Hc. rewrite (Hrec s c Hc).
    destruct (tickType s); cbn; split; congruence.
  - intros w c Hreach Hc. rewrite (Hrec _ c Hc).
    destruct (Reachable_attemptsInRange p w Hreach) as (k & Hk & Hatt).
    split.
    + intros ->. cbn. exists k. now rewrite Hatt.
    + destruct (tickType (state w)); cbn; congruence.
Qed.

(** *** Height and time on wall *)

(** C9: a height or time on wall equal to the number 0 is a set value: the
    record carries it as 0; typing [0] into the input stores that number,
    and emptying the input stores the unset value, which the record then
    lacks. *)
Theorem zero_height_kept_empty_input_unset p :
  (forall s (c : Climb),
      toRecord p s = Some c ->
      (height s = Some (lit 0) -> climb_height c = Some (lit 0))
      /\ (timeOnWall s = Some (lit 0) -> climb_timeOnWall c = Some (lit 0))
      /\ (height s = None -> climb_height c = None)
      /\ (timeOnWall s = None -> climb_timeOnWall c = None))
  /\ (forall s w,
        height (state (exec (handle p s (HeightChange "0")) w))
          = Some (lit 0)
        /\ timeOnWall (state (exec (handle p s (TimeOnWallChange "0")) w))
          = Some (lit 0)
        /\ height (state (exec (handle p s (HeightChange "")) w)) = None
        /\ timeOnWall (state (exec (handle p s (TimeOnWallChange "")) w))
          = None).
Proof.
  split.
  - intros s c Hc.
    destruct (toRecord_accepted p s (toRecord_Some_canSubmit p s c Hc))
      as (c' & Hc' & _ & _ & _ & _ & _ & Hh & Ht & _).
    assert (c' = c) by congruence. subst c'.
    rewrite Hh, Ht. repeat match goal with |- _ /\ _ => split end; auto.
  - intros s w. cbn.
    assert (E : @Number number JN "0" = lit 0).
    { change "0" with (decimal 0). apply Number_decimal.
      apply small_lt_safe. lia. }
    rewrite E. repeat split.
Qed.

End FormProperties.

(** ** The properties on concrete drafts *)

(** The form can hold a name made of one space; [canSubmit] accepts it,
    although the trimmed name is empty. *)
Lemma canSubmit_blank_name_counterexample :
  run ydsGrades gymProps [NameChange " "; GradeChange "5.9"] (mount gymProps)
    = Some {| state := blankNameDraft; calls := [] |}
  /\ canSubmit blankNameDraft = true
  /\ ~ (trim (name blankNameDraft) <> "" /\ grade blankNameDraft <> "").
Proof.
  split; [reflexivity|]. split; [reflexivity|].
  intros [H _]. apply H. reflexivity.
Qed.

Lemma canSubmit_name_and_grade_witness :
  name plainDraft = name fullDraft
  /\ grade plainDraft = grade fullDraft
  /\ canSubmit plainDraft = canSubmit fullDraft
  /\ canSubmit fullDraft = true
  /\ toRecord gymProps fullDraft <> None.
Proof.
  destruct (canSubmit_name_and_grade fullDraft) as (Hiff & Hframe & Hrec).
  assert (Hcan : canSubmit fullDraft = true).
  { apply Hiff. split; discriminate. }
  split; [reflexivity|]. split; [reflexivity|].
  split; [apply Hframe; reflexivity|].
  split; [exact Hcan|]. apply Hrec. exact Hcan.
Defined.

Lemma rejected_submit_changes_nothing_witness :
  canSubmit namelessDraft = false
  /\ toRecord gymProps namelessDraft = None
  /\ submit gymProps namelessDraft [OnCancel]
       = {| state := namelessDraft; calls := [OnCancel] |}.
Proof.
  destruct (rejected_submit_changes_nothing gymProps namelessDraft eq_refl)
    as (_ & Hrec & Hsub).
  split; [reflexivity|]. split; [exact Hrec|]. apply Hsub.
Defined.

(** The record of a name typed with a space on either side keeps both
    spaces. *)
Lemma record_name_not_trimmed_counterexample :
  canSubmit paddedNameDraft = true
  /\ exists c : Climb,
       toRecord gymProps paddedNameDraft = Some c
       /\ climb_name c = " Crimpy "
       /\ trim (name paddedNameDraft) = "Crimpy"
       /\ climb_name c <> trim (name paddedNameDraft).
Proof.
  split; [reflexivity|]. eexists. split; [reflexivity|].
  split; [reflexivity|]. split; [reflexivity|]. discriminate.
Qed.

Lemma record_name_and_grade_verbatim_witness :
  canSubmit paddedNameDraft = true
  /\ exists c : Climb,
       toRecord gymProps paddedNameDraft = Some c
       /\ climb_name c = " Crimpy " /\ climb_grade c = "5.10a".
Proof.
  split; [reflexivity|].
  exact (record_name_and_grade_verbatim gymProps paddedNameDraft eq_refl).
Defined.

Lemma optional_fields_omitted_or_verbatim_witness :
  canSubmit fullDraft = true
  /\ exists c : Climb,
       toRecord gymProps fullDraft = Some c
       /\ climb_location c = Some "Wall 3"
       /\ climb_height c = Some (lit 0)
       /\ climb_timeOnWall c = Some (lit 12)
       /\ climb_notes c = Some "pumpy"
       /\ climb_physicalSkills c = Some ["power"]
       /\ climb_technicalSkills c = Some ["heel hook"].
Proof.
  split; [reflexivity|].
  destruct (optional_fields_omitted_or_verbatim gymProps fullDraft eq_refl)
    as (c & Hc & _ & Hl & _ & Hh & _ & Ht & _ & Hn & _ & Hp & _ & Hte).
  exists c. split; [exact Hc|].
  split; [apply Hl; discriminate|].
  split; [apply Hh; reflexivity|].
  split; [apply Ht; reflexivity|].
  split; [apply Hn; discriminate|].
  split; [apply Hp; discriminate|].
  apply Hte; discriminate.
Defined.

Lemma accepted_submit_resets_draft_witness :
  canSubmit fullDraft = true
  /\ state (submit gymProps fullDraft []) = initialDraft gymProps
  /\ location (state (submit gymProps fullDraft [])) = "Gym X".
Proof.
  destruct (accepted_submit_resets_draft gymProps fullDraft [] eq_refl)
    as (_ & Hinit & _ & _ & _ & _ & _ & _ & _ & _ & _ & _ & Hloc).
  split; [reflexivity|]. split; [exact Hinit|exact Hloc].
Defined.

Lemma accepted_submit_collapses_optional_witness :
  canSubmit fullDraft = true
  /\ showOptional fullDraft = true
  /\ showOptional (state (submit gymProps fullDraft [])) = false.
Proof.
  split; [reflexivity|]. split; [reflexivity|].
  exact (accepted_submit_collapses_optional gymProps fullDraft [] eq_refl).
Defined.

Lemma toggle_optional_frame_witness :
  run ydsGrades gymProps [ToggleOptional; ToggleOptional]
    {| state := fullDraft; calls := [] |}
  = Some {| state := fullDraft; calls := [] |}.
Proof.
  exact (proj2 (toggle_optional_frame ydsGrades gymProps
                  {| state := fullDraft; calls := [] |})).
Defined.

Lemma tickType_away_from_attempt_resets_attempts_witness :
  flash <> attempt
  /\ 1 <= 3 <= 5
  /\ attempts
       (state (exec (handle gymProps (state attemptWorld)
                       (TickTypeClick flash)) attemptWorld)) = lit 1
  /\ exists w1 w2 w3 : @World IntNumber.t,
       dispatch ydsGrades gymProps (mount gymProps) (TickTypeClick attempt)
         = Some w1
       /\ dispatch ydsGrades gymProps w1 (AttemptsChange "3") = Some w2
       /\ attempts (state w2) = lit 3
       /\ dispatch ydsGrades gymProps w2 (TickTypeClick send) = Some w3
       /\ attempts (state w3) = lit 1.
Proof.
  assert (Hflash : flash <> attempt) by discriminate.
  assert (Hthree : 1 <= 3 <= 5) by lia.
  destruct (tickType_away_from_attempt_resets_attempts ydsGrades gymProps)
    as (Hclick & Htrip).
  split; [exact Hflash|]. split; [exact Hthree|].
  split; [exact (proj1 (Hclick _ attemptWorld flash Hflash))|].
  destruct (Htrip (mount gymProps) 3 Hthree)
    as (w1 & w2 & w3 & H1 & H2 & _ & Ha2 & H3 & _ & Ha3).
  exists w1, w2, w3. repeat split; assumption.
Defined.

Lemma attempts_key_iff_attempt_witness :
  Reachable ydsGrades gymProps attemptWorld
  /\ exists c : Climb,
       toRecord gymProps (state attemptWorld) = Some c
       /\ exists k : Z, 1 <= k <= 5 /\ climb_attempts c = Some (lit k).
Proof.
  assert (Hreach : Reachable ydsGrades gymProps attemptWorld).
  { apply (Reachable_run ydsGrades gymProps attemptEvents (mount gymProps)).
    - apply Reachable_mount.
    - reflexivity. }
  split; [exact Hreach|].
  eexists. split; [reflexivity|].
  exact (proj1 (proj2 (attempts_key_iff_attempt ydsGrades gymProps)
                  attemptWorld _ Hreach eq_refl) eq_refl).
Defined.

Lemma zero_height_kept_empty_input_unset_witness :
  height fullDraft = Some (lit 0)
  /\ exists c : Climb,
       toRecord gymProps fullDraft = Some c
       /\ climb_height c = Some (lit 0).
Proof.
  split; [reflexivity|]. eexists. split; [reflexivity|].
  exact (proj1 (proj1 (zero_height_kept_empty_input_unset gymProps)
                  fullDraft _ eq_refl) eq_refl).
Defined.

(** ** Invariants of the running form *)

Section FormBehaviour.

Context {number : Type} {JN : JsNumber number}.
Variable getGradesForSystem : string -> list string.

Implicit Types (p : Props) (s : @Draft number) (w : @World number).
Implicit Types (e : @Event number) (c : @Climb number).

Local Abbreviation dispatch := (dispatch getGradesForSystem).
Local Abbreviation run := (run getGradesForSystem).
Local Abbreviation Reachable := (Reachable getGradesForSystem).
Local Abbreviation availableGrades := (availableGrades getGradesForSystem).
Local Abbreviation validDraft := (validDraft getGradesForSystem).
Local Abbreviation wellFormedRecord := (wellFormedRecord getGradesForSystem).

Lemma World_eta w : {| state := state w; calls := calls w |} = w.
Proof. now destruct w. Qed.

Lemma exec_handleSubmit p w :
  exec (handleSubmit p (state w)) w = submit p (state w) (calls w).
Proof. unfold submit. now rewrite World_eta. Qed.

Lemma dispatch_eq p w e :
  dispatch p w e =
    if offered getGradesForSystem p (state w) e
    then Some (exec (handle p (state w) e) w)
    else None.
Proof. reflexivity. Qed.

(** What one action does to the callback log and, for the two actions that
    call back, to the state. *)
Lemma dispatch_calls p w e w' :
  dispatch p w e = Some w' ->
  match e with
  | Submit =>
      if canSubmit (state w)
      then exists c, toRecord p (state w) = Some c
                     /\ calls w' = (calls w ++ [OnSubmit c])%list
                     /\ state w' = initialDraft p
      else w' = w
  | Cancel => calls w' = (calls w ++ [OnCancel])%list /\ state w' = state w
  | _ => calls w' = calls w
  end.
Proof.
  rewrite dispatch_eq.
  destruct (offered getGradesForSystem p (state w) e); [|discriminate].
  intros [= <-].
  destruct e as [v|v|k|v| |v|v|v|v|v|v|v| | ]; try reflexivity.
  - destruct k; reflexivity.
  - cbn [handle]. destruct (canSubmit (state w)) eqn:Hcan.
    + rewrite exec_handleSubmit.
      destruct (toRecord_accepted p (state w) Hcan) as (c & Hc & Hsub & _).
      exists c. rewrite (Hsub (calls w)). now repeat split.
    + unfold exec. now rewrite (handleSubmit_rejected p (state w) w Hcan).
  - now split.
Qed.

Lemma enterable_input (value : string) :
  enterable (if truthy value then Some (Number value) else None).
Proof.
  destruct (truthy value) eqn:E; cbn; [|exact I].
  exists value. split; [now apply truthy_true_iff|reflexivity].
Qed.

Lemma initialDraft_valid p : validDraft p (initialDraft p).
Proof.
  repeat split; cbn; auto.
  exists 1. split; [lia|reflexivity].
Qed.

(** Every handler keeps the draft valid. *)
Lemma dispatch_valid p w e w' :
  validDraft p (state w) -> dispatch p w e = Some w' ->
  validDraft p (state w').
Proof.
  intros Hv Hstep.
  assert (Hatt : attemptsInRange (state w')).
  { apply (dispatch_attemptsInRange getGradesForSystem p w w' e);
      [apply Hv|exact Hstep]. }
  pose proof (dispatch_calls p w e w' Hstep) as Hcalls.
  rewrite dispatch_eq in Hstep.
  destruct (offered getGradesForSystem p (state w) e) eqn:Hoff;
    [|discriminate].
  injection Hstep as <-.
  destruct Hv as (Hg & _ & Hstale & Hh & Ht).
  destruct e as [v|v|k|v| |v|v|v|v|v|v|v| | ];
    try (split; [exact Hg|split; [exact Hatt|split; [exact Hstale|
         split; [exact Hh|exact Ht]]]]).
  - (* GradeChange *)
    split; [|split; [exact Hatt|split; [exact Hstale|split; assumption]]].
    right. cbn in Hoff. apply existsb_exists in Hoff.
    destruct Hoff as (x & Hin & Heq). apply String.eqb_eq in Heq.
    now subst x.
  - (* TickTypeClick *)
    split; [destruct k; exact Hg|].
    split; [exact Hatt|].
    split; [|split; destruct k; assumption].
    destruct k; cbn; congruence.
  - (* AttemptsChange *)
    cbn in Hoff. apply andb_true_iff in Hoff. destruct Hoff as [Hk _].
    split; [exact Hg|]. split; [exact Hatt|].
    split; [|split; assumption].
    cbn. destruct (tickType (state w)); cbn in Hk; congruence.
  - (* HeightChange *)
    split; [exact Hg|]. split; [exact Hatt|]. split; [exact Hstale|].
    split; [apply enterable_input|exact Ht].
  - (* TimeOnWallChange *)
    split; [exact Hg|]. split; [exact Hatt|]. split; [exact Hstale|].
    split; [exact Hh|apply enterable_input].
  - (* Submit *)
    destruct (canSubmit (state w)) eqn:Hcan.
    + destruct Hcalls as (c & _ & _ & ->). apply initialDraft_valid.
    + rewrite Hcalls in Hatt |- *.
      split; [exact Hg|split; [exact Hatt|split; [exact Hstale|
        split; assumption]]].
Qed.

Lemma Reachable_valid p w : Reachable p w -> validDraft p (state w).
Proof.
  induction 1 as [|w w' e _ IH Hstep].
  - apply initialDraft_valid.
  - exact (dispatch_valid p w e w' IH Hstep).
Qed.

(** X1: the attempts count never goes stale: in every world the form can be
    brought to, a tick type other than [attempt] comes with [attempts]
    equal to 1. *)
Theorem attempts_never_stale p w :
  Reachable p w -> tickType (state w) <> attempt ->
  attempts (state w) = lit 1.
Proof.
  intros Hr. destruct (Reachable_valid p w Hr) as (_ & _ & Hstale & _).
  exact Hstale.
Qed.

(** *** The records handed to [onSubmit] *)

Lemma submitted_app (cs cs' : list (@Call number)) :
  submitted (cs ++ cs') = (submitted cs ++ submitted cs')%list.
Proof.
  induction cs as [|[c|] cs IH]; cbn; [reflexivity| |exact IH].
  now rewrite IH.
Qed.

Lemma orUndefined_not_empty (v : string) : orUndefined v <> Some "".
Proof.
  unfold orUndefined. destruct (truthy v) eqn:E; [|discriminate].
  intros [= ->]. discriminate.
Qed.

Lemma nonEmptyOrUndefined_not_nil {A : Type} (xs : list A) :
  nonEmptyOrUndefined xs <> Some [].
Proof.
  destruct xs as [|x xs]; [discriminate|].
  rewrite nonEmptyOrUndefined_cons. discriminate.
Qed.

Lemma record_wellFormed p s c :
  validDraft p s -> toRecord p s = Some c -> wellFormedRecord p c.
Proof.
  intros (Hg & (k & Hk & Hatt) & _ & _) Hc.
  pose proof (toRecord_Some_canSubmit p s c Hc) as Hcan.
  destruct (toRecord_accepted p s Hcan)
    as (c' & Hc' & _ & Hn & Hgr & Htt & Ha & _ & _ & _ & Hno & Hph & Hte
        & Hl).
  assert (c' = c) by congruence. subst c'.
  apply canSubmit_true_iff in Hcan. destruct Hcan as [Hname Hgrade].
  unfold wellFormedRecord.
  rewrite Hn, Hgr, Htt, Ha, Hno, Hph, Hte, Hl.
  repeat match goal with |- _ /\ _ => split end.
  - exact Hname.
  - exact Hgrade.
  - destruct Hg as [Hg|Hg]; [contradiction|exact Hg].
  - intros ->. cbn. exists k. now rewrite Hatt.
  - destruct (tickType s); cbn; congruence.
  - apply orUndefined_not_empty.
  - apply orUndefined_not_empty.
  - apply nonEmptyOrUndefined_not_nil.
  - apply nonEmptyOrUndefined_not_nil.
Qed.

(** X2: every record the form has ever handed to [onSubmit] is complete
    and consistent: name and grade are non-empty, the grade is an item of
    the grade [Select], attempts is present (and one of 1..5) exactly when
    the record's own tick type is [attempt], and location, notes and the
    two skill lists are never present and empty. *)
Theorem submitted_records_wellFormed p w :
  Reachable p w -> Forall (wellFormedRecord p) (submitted (calls w)).
Proof.
  induction 1 as [|w w' e Hr IH Hstep].
  - constructor.
  - pose proof (dispatch_calls p w e w' Hstep) as Hcalls.
    destruct e as [v|v|k|v| |v|v|v|v|v|v|v| | ];
      try (rewrite Hcalls; exact IH).
    + destruct (canSubmit (state w)).
      * destruct Hcalls as (c & Hc & -> & _). rewrite submitted_app.
        apply Forall_app. split; [exact IH|].
        constructor; [|constructor].
        exact (record_wellFormed p (state w) c (Reachable_valid p w Hr) Hc).
      * now subst w'.
    + destruct Hcalls as [-> _]. rewrite submitted_app. cbn.
      now rewrite app_nil_r.
Qed.

(** X3: when [getGradesForSystem] returns no grade for the grading system,
    no grade can be chosen, and the form never calls [onSubmit]. *)
Theorem empty_catalog_never_submits p w :
  availableGrades p = [] -> Reachable p w -> submitted (calls w) = [].
Proof.
  intros Hempty. induction 1 as [|w w' e Hr IH Hstep]; [reflexivity|].
  pose proof (dispatch_calls p w e w' Hstep) as Hcalls.
  destruct e as [v|v|k|v| |v|v|v|v|v|v|v| | ];
    try (rewrite Hcalls; exact IH).
  - destruct (canSubmit (state w)) eqn:Hcan; [|now subst w'].
    apply canSubmit_true_iff in Hcan. destruct Hcan as [_ Hgrade].
    destruct (Reachable_valid p w Hr) as ([Hg|Hg] & _); [contradiction|].
    rewrite Hempty in Hg. destruct Hg.
  - destruct Hcalls as [-> _]. rewrite submitted_app. cbn.
    now rewrite app_nil_r.
Qed.

(** *** The callback log *)

Lemma dispatch_log_grows p w e w' :
  dispatch p w e = Some w' ->
  exists added : list Call,
    calls w' = (calls w ++ added)%list
    /\ (List.length added <= if callsBack e then 1 else 0)%nat.
Proof.
  intros Hstep. pose proof (dispatch_calls p w e w' Hstep) as Hcalls.
  destruct e as [v|v|k|v| |v|v|v|v|v|v|v| | ];
    try (exists []; rewrite app_nil_r; split; [exact Hcalls|cbn; lia]).
  - destruct (canSubmit (state w)).
    + destruct Hcalls as (c & _ & -> & _). exists [OnSubmit c].
      split; [reflexivity|cbn; lia].
    + subst w'. exists []. rewrite app_nil_r. split; [reflexivity|cbn; lia].
  - destruct Hcalls as [-> _]. exists [OnCancel].
    split; [reflexivity|cbn; lia].
Qed.

(** X4: the callback log only grows, and only through [Submit] and
    [Cancel]: a run of actions keeps the calls made before it as a prefix
    and adds at most one call per [Submit] or [Cancel] in it; a run
    without these two adds none. *)
Theorem run_log_grows p (es : list Event) :
  forall w w',
    run p es w = Some w' ->
    exists added : list Call,
      calls w' = (calls w ++ added)%list
      /\ (List.length added <= List.length (filter callsBack es))%nat.
Proof.
  induction es as [|e es IH]; intros w w'; cbn [run filter].
  - intros [= <-]. exists []. rewrite app_nil_r. split; [reflexivity|cbn; lia].
  - destruct (dispatch p w e) as [w1|] eqn:Hstep; [|discriminate].
    intros Hrun.
    destruct (dispatch_log_grows p w e w1 Hstep) as (a1 & Ha1 & Hl1).
    destruct (IH w1 w' Hrun) as (a2 & Ha2 & Hl2).
    exists (a1 ++ a2)%list. split.
    + now rewrite Ha2, Ha1, app_assoc.
    + rewrite length_app. destruct (callsBack e); cbn [List.length]; lia.
Qed.

(** *** Submissions need a name and a grade *)

Lemma dispatch_name_empty p w e w' :
  isNameChange e = false -> name (state w) = "" ->
  dispatch p w e = Some w' ->
  name (state w') = "" /\ submitted (calls w') = submitted (calls w).
Proof.
  intros He Hname Hstep.
  pose proof (dispatch_calls p w e w' Hstep) as Hcalls.
  rewrite dispatch_eq in Hstep.
  destruct (offered getGradesForSystem p (state w) e); [|discriminate].
  injection Hstep as Hw'.
  assert (Hcan : canSubmit (state w) = false).
  { apply canSubmit_false_iff. now left. }
  destruct e as [v|v|k|v| |v|v|v|v|v|v|v| | ]; try discriminate He;
    try (rewrite Hcalls; split; [subst w'; exact Hname|reflexivity]).
  - subst w'. destruct k; now split.
  - rewrite Hcan in Hcalls. rewrite Hcalls. now split.
  - destruct Hcalls as [-> ->]. split; [exact Hname|].
    rewrite submitted_app. cbn. now rewrite app_nil_r.
Qed.

Lemma dispatch_grade_empty p w e w' :
  isGradeChange e = false -> grade (state w) = "" ->
  dispatch p w e = Some w' ->
  grade (state w') = "" /\ submitted (calls w') = submitted (calls w).
Proof.
  intros He Hgrade Hstep.
  pose proof (dispatch_calls p w e w' Hstep) as Hcalls.
  rewrite dispatch_eq in Hstep.
  destruct (offered getGradesForSystem p (state w) e); [|discriminate].
  injection Hstep as Hw'.
  assert (Hcan : canSubmit (state w) = false).
  { apply canSubmit_false_iff. now right. }
  destruct e as [v|v|k|v| |v|v|v|v|v|v|v| | ]; try discriminate He;
    try (rewrite Hcalls; split; [subst w'; exact Hgrade|reflexivity]).
  - subst w'. destruct k; now split.
  - rewrite Hcan in Hcalls. rewrite Hcalls. now split.
  - destruct Hcalls as [-> ->]. split; [exact Hgrade|].
    rewrite submitted_app. cbn. now rewrite app_nil_r.
Qed.

(** X5: from a form whose name is empty, no run of actions without a
    [NameChange] hands a record to [onSubmit]; likewise from a form whose
    grade is empty, for runs without a [GradeChange]. *)
Theorem no_record_without_name_and_grade p (es : list Event) :
  forall w w',
    (name (state w) = "" /\ existsb isNameChange es = false)
    \/ (grade (state w) = "" /\ existsb isGradeChange es = false) ->
    run p es w = Some w' ->
    submitted (calls w') = submitted (calls w).
Proof.
  induction es as [|e es IH]; intros w w' Hpre; cbn [run].
  - now intros [= <-].
  - destruct (dispatch p w e) as [w1|] eqn:Hstep; [|discriminate].
    intros Hrun. cbn [existsb] in Hpre.
    destruct Hpre as [[Hempty Hnone]|[Hempty Hnone]];
      apply orb_false_iff in Hnone; destruct Hnone as [He Hes].
    + destruct (dispatch_name_empty p w e w1 He Hempty Hstep) as [Hn Hs].
      rewrite <- Hs. apply IH; [left; now split|exact Hrun].
    + destruct (dispatch_grade_empty p w e w1 He Hempty Hstep) as [Hg Hs].
      rewrite <- Hs. apply IH; [right; now split|exact Hrun].
Qed.

(** X6: submitting twice in a row hands over one record: after a
    submission that produced a record, a second [Submit] is stopped by the
    guard and changes nothing. *)
Theorem double_submit_submits_once p w :
  canSubmit (state w) = true ->
  exists c,
    toRecord p (state w) = Some c
    /\ run p [Submit; Submit] w =
         Some {| state := initialDraft p;
                 calls := (calls w ++ [OnSubmit c])%list |}.
Proof.
  intros Hcan.
  destruct (toRecord_accepted p (state w) Hcan) as (c & Hc & Hsub & _).
  exists c. split; [exact Hc|].
  cbn [run]. rewrite dispatch_eq. cbn [offered handle].
  rewrite exec_handleSubmit, (Hsub (calls w)).
  rewrite dispatch_eq. cbn [offered handle state].
  unfold exec. now rewrite handleSubmit_rejected.
Qed.

(** *** The form after a submission *)

(** No handler reads the callback log: calls made earlier are carried
    along unchanged. *)
Lemma dispatch_withEarlierCalls p (cs : list Call) w e :
  dispatch p (withEarlierCalls cs w) e =
    option_map (withEarlierCalls cs) (dispatch p w e).
Proof.
  rewrite !dispatch_eq. cbn [withEarlierCalls state].
  destruct (offered getGradesForSystem p (state w) e); [|reflexivity].
  cbn [option_map]. f_equal.
  destruct e as [v|v|k|v| |v|v|v|v|v|v|v| | ]; try reflexivity.
  - destruct k; reflexivity.
  - cbn [handle]. destruct (canSubmit (state w)) eqn:Hcan.
    + destruct (toRecord_accepted p (state w) Hcan) as (c & _ & Hsub & _).
      pose proof (Hsub (cs ++ calls w)%list) as Hlater.
      pose proof (Hsub (calls w)) as Hnow.
      unfold submit in Hlater, Hnow. rewrite World_eta in Hnow.
      unfold withEarlierCalls at 1.
      rewrite Hlater, Hnow. unfold withEarlierCalls. cbn [state calls].
      now rewrite app_assoc.
    + unfold exec. now rewrite !handleSubmit_rejected.
  - unfold withEarlierCalls. cbn. now rewrite app_assoc.
Qed.

Lemma run_withEarlierCalls p (cs : list Call) (es : list Event) :
  forall w,
    run p es (withEarlierCalls cs w) =
      option_map (withEarlierCalls cs) (run p es w).
Proof.
  induction es as [|e es IH]; intros w; cbn [run]; [reflexivity|].
  rewrite dispatch_withEarlierCalls.
  destruct (dispatch p w e) as [w1|]; cbn [option_map]; [apply IH|].
  reflexivity.
Qed.

(** X7: after a submission that produced a record the form is as good as
    freshly mounted: any further run of actions is possible exactly when
    it is on the mounted form, leads to the same state, and makes the same
    calls, after those already made. *)
Theorem submitted_form_is_fresh p w w1 (es : list Event) :
  canSubmit (state w) = true ->
  dispatch p w Submit = Some w1 ->
  run p es w1 = option_map (withEarlierCalls (calls w1)) (run p es (mount p)).
Proof.
  intros Hcan Hstep.
  pose proof (dispatch_calls p w Submit w1 Hstep) as Hcalls.
  cbn beta iota in Hcalls. rewrite Hcan in Hcalls.
  destruct Hcalls as (c & _ & Hlog & Hstate).
  assert (Hw1 : w1 = withEarlierCalls (calls w1) (mount p)).
  { destruct w1 as [s1 cs1]. cbn in Hstate |- *. subst s1.
    unfold withEarlierCalls. cbn. now rewrite app_nil_r. }
  rewrite Hw1 at 1. apply run_withEarlierCalls.
Qed.

(** *** Effort *)

Lemma dispatch_effort p w e w' :
  sliderReportsValue e = true ->
  effort (state w) <> [] ->
  Forall (fun c => climb_effort c <> None) (submitted (calls w)) ->
  dispatch p w e = Some w' ->
  effort (state w') <> []
  /\ Forall (fun c => climb_effort c <> None) (submitted (calls w')).
Proof.
  intros He Heff Hlog Hstep.
  pose proof (dispatch_calls p w e w' Hstep) as Hcalls.
  rewrite dispatch_eq in Hstep.
  destruct (offered getGradesForSystem p (state w) e); [|discriminate].
  injection Hstep as Hw'.
  destruct e as [v|v|k|v| |v|v|v|v|v|v|v| | ];
    try (rewrite Hcalls; split; [subst w'; exact Heff|exact Hlog]).
  - subst w'. split; [destruct k; exact Heff|destruct k; exact Hlog].
  - rewrite Hcalls. split; [|exact Hlog]. subst w'. cbn.
    destruct v; [discriminate He|discriminate].
  - destruct (canSubmit (state w)) eqn:Hcan.
    + destruct Hcalls as (c & Hc & -> & ->). split; [discriminate|].
      rewrite submitted_app. apply Forall_app. split; [exact Hlog|].
      constructor; [|constructor].
      destruct (toRecord_accepted p (state w) Hcan)
        as (c' & Hc' & _ & _ & _ & _ & _ & _ & _ & Hef & _).
      assert (c' = c) by congruence. subst c'. rewrite Hef.
      destruct (effort (state w)); [contradiction|discriminate].
    + rewrite Hcalls. now split.
  - destruct Hcalls as [-> ->]. split; [exact Heff|].
    rewrite submitted_app. cbn. now rewrite app_nil_r.
Qed.

(** X8: as long as the slider only ever reports a non-empty array of
    values, the [effort] cell is never empty and every record handed to
    [onSubmit] carries an effort. *)
Theorem effort_always_present p (es : list Event) w :
  forallb sliderReportsValue es = true ->
  run p es (mount p) = Some w ->
  effort (state w) <> []
  /\ Forall (fun c => climb_effort c <> None) (submitted (calls w)).
Proof.
  assert (Hgen : forall (l : list Event) w0 w1,
            forallb sliderReportsValue l = true ->
            effort (state w0) <> [] ->
            Forall (fun c => climb_effort c <> None) (submitted (calls w0)) ->
            run p l w0 = Some w1 ->
            effort (state w1) <> []
            /\ Forall (fun c => climb_effort c <> None)
                 (submitted (calls w1))).
  { induction l as [|e l IH]; intros w0 w1 Hall Heff Hlog; cbn [run].
    - intros [= <-]. now split.
    - destruct (dispatch p w0 e) as [w2|] eqn:Hstep; [|discriminate].
      cbn [forallb] in Hall. apply andb_true_iff in Hall.
      destruct Hall as [He Hl].
      destruct (dispatch_effort p w0 e w2 He Heff Hlog Hstep) as [Heff2 Hlog2].
      now apply IH. }
  intros Hall Hrun.
  apply (Hgen es (mount p) w Hall); [discriminate|constructor|exact Hrun].
Qed.

(** *** The drafts the form can hold *)



Lemma grade_item_offered p s (g : string) :
  In g (availableGrades p) ->
  offered getGradesForSystem p s (GradeChange g) = true.
Proof.
  intros Hin. cbn. apply existsb_exists. exists g.
  split; [exact Hin|apply String.eqb_refl].
Qed.



(** *** The attempts [Select] *)

(** X10: whenever the attempts [Select] is rendered, the value it shows is
    one of its five items, and choosing that item again leaves the world
    as it is. *)
Theorem attempts_select_shows_an_item p w (v : string) :
  Reachable p w ->
  attemptsSelectValue (state w) = Some v ->
  In v attemptsItems /\ dispatch p w (AttemptsChange v) = Some w.
Proof.
  intros Hr Hv.
  destruct (Reachable_attemptsInRange getGradesForSystem p w Hr)
    as (k & Hk & Hatt).
  unfold attemptsSelectValue in Hv.
  destruct (TickType_eqb (tickType (state w)) attempt) eqn:Ek;
    [|discriminate].
  injection Hv as <-. rewrite Hatt.
  assert (Hin : In (toString (lit k)) attemptsItems).
  { pose proof (attemptsItems_offered k Hk) as Hex.
    apply existsb_exists in Hex. destruct Hex as (x & Hin & Heq).
    apply String.eqb_eq in Heq. now rewrite Heq. }
  split; [exact Hin|].
  rewrite dispatch_eq. cbn -[attemptsItems].
  rewrite Ek, (attemptsItems_offered k Hk). cbn [andb].
  rewrite (Number_toString_item k) by lia.
  destruct w as [[n g l t a h tw e no ph te b] cs]. cbn in *.
  now rewrite Hatt.
Qed.

End FormBehaviour.

(** ** What the user sees *)

Section FormViewProperties.

Context {number : Type} {JN : JsNumber number} {JT : JsNumberTruthy number}.

Implicit Types (p : Props) (s : @Draft number) (w : @World number).

Lemma decimal_nonempty (k : Z) : decimal k <> "".
Proof.
  unfold decimal. destruct (Z.to_int k) as [d|d]; cbn; [|discriminate].
  destruct d; discriminate.
Qed.

(** X11: exactly one tick-type badge is drawn as selected, the one of the
    draft's tick type: a badge carries its colour classes if and only if
    its type is the current one, and carries the neutral classes otherwise;
    after a click on a badge, that badge is the selected one. *)
Theorem one_badge_selected s (type : TickType) :
  (badgeClassName s type =
     "h-12 flex items-center justify-center cursor-pointer transition-all capitalize "
     ++ tickTypeColors type
   <-> type = tickType s)
  /\ (badgeClassName s type =
        "h-12 flex items-center justify-center cursor-pointer transition-all capitalize border-stone-300 text-stone-600 hover:bg-stone-50"
      <-> type <> tickType s)
  /\ (forall p w (clicked : TickType),
        badgeClassName
          (state (exec (handle p s (TickTypeClick clicked)) w)) type =
          "h-12 flex items-center justify-center cursor-pointer transition-all capitalize "
          ++ tickTypeColors type
        <-> type = clicked).
Proof.
  split; [|split].
  - unfold badgeClassName.
    destruct (tickType s), type; cbn; split; intros H;
      solve [reflexivity | discriminate H].
  - unfold badgeClassName.
    destruct (tickType s), type; cbn; split; intros H;
      solve [reflexivity | discriminate H | congruence
            | exfalso; apply H; reflexivity].
  - intros p w clicked. unfold badgeClassName.
    destruct clicked, type; cbn; split; intros H;
      solve [reflexivity | discriminate H].
Qed.

(** X12: typing a whole number into the height or time input stores that
    number; the input then shows the number back when it is positive, but
    shows nothing when it is 0 (the cell holds 0 all the same); clearing
    the input shows nothing and unsets the cell. *)
Theorem number_inputs_show_positive_hide_zero p s w (k : Z) :
  0 <= k < 2 ^ 53 ->
  height (state (exec (handle p s (HeightChange (decimal k))) w))
    = Some (lit k)
  /\ heightInputValue (state (exec (handle p s (HeightChange (decimal k))) w))
      = (if k =? 0 then "" else decimal k)
  /\ timeOnWall (state (exec (handle p s (TimeOnWallChange (decimal k))) w))
      = Some (lit k)
  /\ timeOnWallInputValue
       (state (exec (handle p s (TimeOnWallChange (decimal k))) w))
      = (if k =? 0 then "" else decimal k)
  /\ heightInputValue (state (exec (handle p s (HeightChange "")) w)) = ""
  /\ timeOnWallInputValue
       (state (exec (handle p s (TimeOnWallChange "")) w)) = "".
Proof.
  intros Hk.
  assert (Ht : truthy (decimal k) = true).
  { apply truthy_true_iff, decimal_nonempty. }
  unfold heightInputValue, timeOnWallInputValue. cbn.
  rewrite Ht, (Number_decimal k Hk), (numberTruthy_lit k Hk),
    (toString_lit k Hk).
  destruct (k =? 0); repeat split.
Qed.

End FormViewProperties.

(** ** Whole interactions *)

Section FormScenarios.

Context {number : Type} {JN : JsNumber number}.
Variable getGradesForSystem : string -> list string.

Implicit Types (p : Props) (s : @Draft number) (w : @World number).

Local Abbreviation dispatch := (dispatch getGradesForSystem).
Local Abbreviation run := (run getGradesForSystem).
Local Abbreviation availableGrades := (availableGrades getGradesForSystem).

(** X13: [Cancel] calls [onCancel] and keeps the draft: the form is not
    reset, and whatever follows goes on as it would have without the
    cancellation, after the one [onCancel] call. *)
Theorem cancel_keeps_draft p w (es : list Event) :
  dispatch p w Cancel
    = Some {| state := state w; calls := (calls w ++ [OnCancel])%list |}
  /\ run p (Cancel :: es) w =
       option_map (withEarlierCalls (calls w ++ [OnCancel])%list)
         (run p es {| state := state w; calls := [] |}).
Proof.
  split; [reflexivity|].
  change (run p (Cancel :: es) w)
    with (run p es
            {| state := state w; calls := (calls w ++ [OnCancel])%list |}).
  rewrite <- (run_withEarlierCalls getGradesForSystem).
  unfold withEarlierCalls. cbn [state calls]. now rewrite app_nil_r.
Qed.

(** X14: the quickest log: on a freshly mounted form, typing a non-empty
    name, choosing a grade of the catalogue and submitting hands over one
    record with that name and grade, tick type [send], effort 7, the
    session location when one was passed and is non-empty, and nothing
    else; the form is back in its initial state. *)
Theorem quick_log_record p (n g : string) :
  n <> "" -> g <> "" -> In g (availableGrades p) ->
  run p [NameChange n; GradeChange g; Submit] (mount p) =
    Some {| state := initialDraft p;
            calls :=
              [OnSubmit
                 {| climb_name := n;
                    climb_grade := g;
                    climb_tickType := send;
                    climb_attempts := None;
                    climb_height := None;
                    climb_timeOnWall := None;
                    climb_effort := Some (lit 7);
                    climb_notes := None;
                    climb_physicalSkills := None;
                    climb_technicalSkills := None;
                    climb_location :=
                      match sessionLocation p with
                      | Some l => if (l =? "")%string then None else Some l
                      | None => None
                      end |}] |}.
Proof.
  intros Hn Hg Hin.
  assert (Hloc : orUndefined (orElse (sessionLocation p) "") =
                 match sessionLocation p with
                 | Some l => if (l =? "")%string then None else Some l
                 | None => None
                 end).
  { destruct (sessionLocation p) as [l|]; [|reflexivity].
    unfold orElse, orUndefined, truthy.
    destruct (String.eqb_spec l ""); cbn; [reflexivity|].
    destruct (String.eqb_spec l ""); [contradiction|reflexivity]. }
  cbn [run]. rewrite dispatch_eq. cbn [offered handle].
  rewrite dispatch_eq.
  rewrite (grade_item_offered getGradesForSystem p _ g Hin).
  rewrite dispatch_eq. cbn [offered].
  unfold exec, handle, handleSubmit. cbn.
  rewrite (proj2 (truthy_true_iff n) Hn), (proj2 (truthy_true_iff g) Hg).
  cbn. now rewrite <- Hloc.
Qed.

End FormScenarios.

(** ** The further properties on concrete worlds *)

Lemma flashWorld_Reachable : Reachable ydsGrades gymProps flashWorld.
Proof.
  apply (Reachable_run ydsGrades gymProps flashEvents (mount gymProps));
    [apply Reachable_mount|reflexivity].
Qed.

Lemma submittedWorld_Reachable : Reachable ydsGrades gymProps submittedWorld.
Proof.
  apply (Reachable_run ydsGrades gymProps (attemptEvents ++ [Submit])
           (mount gymProps)); [apply Reachable_mount|reflexivity].
Qed.

Lemma attempts_never_stale_witness :
  Reachable ydsGrades gymProps flashWorld
  /\ tickType (state flashWorld) <> attempt
  /\ attempts (state flashWorld) = lit 1.
Proof.
  assert (Hflash : tickType (state flashWorld) <> attempt) by discriminate.
  split; [exact flashWorld_Reachable|]. split; [exact Hflash|].
  exact (attempts_never_stale ydsGrades gymProps flashWorld
           flashWorld_Reachable Hflash).
Defined.

Lemma submitted_records_wellFormed_witness :
  Reachable ydsGrades gymProps submittedWorld
  /\ Forall (wellFormedRecord ydsGrades gymProps) [attemptClimb].
Proof.
  split; [exact submittedWorld_Reachable|].
  exact (submitted_records_wellFormed ydsGrades gymProps submittedWorld
           submittedWorld_Reachable).
Defined.

Lemma empty_catalog_never_submits_witness :
  availableGrades noGrades gymProps = []
  /\ exists w : @World IntNumber.t,
       run noGrades gymProps [NameChange "X"; Submit; Cancel] (mount gymProps)
         = Some w
       /\ submitted (calls w) = [].
Proof.
  split; [reflexivity|]. eexists. split; [reflexivity|].
  apply (empty_catalog_never_submits noGrades gymProps _ eq_refl).
  apply (Reachable_run noGrades gymProps [NameChange "X"; Submit; Cancel]
           (mount gymProps)); [apply Reachable_mount|reflexivity].
Defined.

Lemma run_log_grows_witness :
  run ydsGrades gymProps (attemptEvents ++ [Submit]) (mount gymProps)
    = Some submittedWorld
  /\ exists added : list (@Call IntNumber.t),
       calls submittedWorld = (calls (mount gymProps) ++ added)%list
       /\ (List.length added <= 1)%nat.
Proof.
  split; [reflexivity|].
  exact (run_log_grows ydsGrades gymProps (attemptEvents ++ [Submit])
           (mount gymProps) submittedWorld eq_refl).
Defined.

Lemma no_record_without_name_and_grade_witness :
  name (state flashWorld) = ""
  /\ existsb isNameChange
       ([GradeChange "5.9"; Submit] : list (@Event IntNumber.t)) = false
  /\ exists w : @World IntNumber.t,
       run ydsGrades gymProps [GradeChange "5.9"; Submit] flashWorld = Some w
       /\ submitted (calls w) = submitted (calls flashWorld).
Proof.
  split; [reflexivity|]. split; [reflexivity|].
  eexists. split; [reflexivity|].
  exact (no_record_without_name_and_grade ydsGrades gymProps
           [GradeChange "5.9"; Submit] flashWorld _
           (or_introl (conj eq_refl eq_refl)) eq_refl).
Defined.

Lemma double_submit_submits_once_witness :
  canSubmit (state attemptWorld) = true
  /\ exists c : Climb,
       toRecord gymProps (state attemptWorld) = Some c
       /\ run ydsGrades gymProps [Submit; Submit] attemptWorld =
            Some {| state := initialDraft gymProps;
                    calls := (calls attemptWorld ++ [OnSubmit c])%list |}.
Proof.
  split; [reflexivity|].
  exact (double_submit_submits_once ydsGrades gymProps attemptWorld eq_refl).
Defined.

Lemma submitted_form_is_fresh_witness :
  canSubmit (state attemptWorld) = true
  /\ dispatch ydsGrades gymProps attemptWorld Submit = Some submittedWorld
  /\ run ydsGrades gymProps [NameChange "Y"; Cancel] submittedWorld =
       option_map (withEarlierCalls (calls submittedWorld))
         (run ydsGrades gymProps [NameChange "Y"; Cancel] (mount gymProps)).
Proof.
  split; [reflexivity|]. split; [reflexivity|].
  exact (submitted_form_is_fresh ydsGrades gymProps attemptWorld
           submittedWorld [NameChange "Y"; Cancel] eq_refl eq_refl).
Defined.

Lemma effort_always_present_witness :
  forallb sliderReportsValue (attemptEvents ++ [Submit]) = true
  /\ run ydsGrades gymProps (attemptEvents ++ [Submit]) (mount gymProps)
       = Some submittedWorld
  /\ effort (state submittedWorld) <> []
  /\ Forall (fun c => climb_effort c <> None)
       (submitted (calls submittedWorld)).
Proof.
  split; [reflexivity|]. split; [reflexivity|].
  exact (effort_always_present ydsGrades gymProps (attemptEvents ++ [Submit])
           submittedWorld eq_refl eq_refl).
Defined.



Lemma attemptWorld_Reachable : Reachable ydsGrades gymProps attemptWorld.
Proof.
  apply (Reachable_run ydsGrades gymProps attemptEvents (mount gymProps));
    [apply Reachable_mount|reflexivity].
Qed.

Lemma attempts_select_shows_an_item_witness :
  Reachable ydsGrades gymProps attemptWorld
  /\ attemptsSelectValue (state attemptWorld) = Some "3"
  /\ In "3" (@attemptsItems IntNumber.t _)
  /\ dispatch ydsGrades gymProps attemptWorld (AttemptsChange "3")
       = Some attemptWorld.
Proof.
  split; [exact attemptWorld_Reachable|]. split; [reflexivity|].
  exact (attempts_select_shows_an_item ydsGrades gymProps attemptWorld "3"
           attemptWorld_Reachable eq_refl).
Defined.

Lemma one_badge_selected_witness :
  flash = tickType (state flashWorld)
  /\ badgeClassName (state flashWorld) flash =
       "h-12 flex items-center justify-center cursor-pointer transition-all capitalize bg-blue-100 text-blue-800 border-blue-200"
  /\ send <> tickType (state flashWorld)
  /\ badgeClassName (state flashWorld) send =
       "h-12 flex items-center justify-center cursor-pointer transition-all capitalize border-stone-300 text-stone-600 hover:bg-stone-50".
Proof.
  assert (Hsend : send <> tickType (state flashWorld)) by discriminate.
  split; [reflexivity|].
  split;
    [exact (proj2 (proj1 (one_badge_selected (state flashWorld) flash))
              eq_refl)|].
  split; [exact Hsend|].
  exact (proj2 (proj1 (proj2 (one_badge_selected (state flashWorld) send)))
           Hsend).
Defined.

Lemma number_inputs_show_positive_hide_zero_witness :
  0 <= 12 < 2 ^ 53
  /\ heightInputValue
       (state (exec (handle gymProps fullDraft (HeightChange "12"))
                 {| state := fullDraft; calls := [] |})) = "12"
  /\ 0 <= 0 < 2 ^ 53
  /\ heightInputValue
       (state (exec (handle gymProps fullDraft (HeightChange "0"))
                 {| state := fullDraft; calls := [] |})) = "".
Proof.
  assert (H12 : 0 <= 12 < 2 ^ 53) by (split; [lia|reflexivity]).
  assert (H0 : 0 <= 0 < 2 ^ 53) by (split; [lia|reflexivity]).
  split; [exact H12|].
  split;
    [exact (proj1 (proj2 (number_inputs_show_positive_hide_zero gymProps
                            fullDraft {| state := fullDraft; calls := [] |}
                            12 H12)))|].
  split; [exact H0|].
  exact (proj1 (proj2 (number_inputs_show_positive_hide_zero gymProps
                         fullDraft {| state := fullDraft; calls := [] |}
                         0 H0))).
Defined.

Lemma quick_log_record_witness :
  "Crimpy" <> ""
  /\ "5.10a" <> ""
  /\ In "5.10a" (availableGrades ydsGrades gymProps)
  /\ exists w : @World IntNumber.t,
       run ydsGrades gymProps
         [NameChange "Crimpy"; GradeChange "5.10a"; Submit] (mount gymProps)
         = Some w
       /\ state w = initialDraft gymProps
       /\ List.length (calls w) = 1%nat.
Proof.
  assert (Hn : "Crimpy" <> "") by discriminate.
  assert (Hg : "5.10a" <> "") by discriminate.
  assert (Hin : In "5.10a" (availableGrades ydsGrades gymProps)).
  { cbn. tauto. }
  split; [exact Hn|]. split; [exact Hg|]. split; [exact Hin|].
  eexists. split;
    [exact (quick_log_record ydsGrades gymProps "Crimpy" "5.10a" Hn Hg Hin)|].
  split; reflexivity.
Defined.
